(** * Expect-CT Lite: the CT admission policy of [client.c]

    A shallow embedding of the functions of [client.c]: the two that carry
    the policy, [on_ct_validation] and [configure_ct_lite_enforcement], and
    [main], which sets up the connection around them; together with the
    part of the OpenSSL interface they call, and the properties proved over
    that embedding.

    Conventions.
    - A C [int] is a [Z].  The loop index grows only under the test
      [i < num_sct], and Lemma [classify_loop_int_range] shows that the
      counter of CA-signed SCTs ends between [0] and [num_sct], itself an
      [int] returned by [sk_SCT_num]: no [int] operation of
      [on_ct_validation] leaves the range of [int].
    - What the function writes to [stderr], directly or through the BIO it
      opens on [stderr], is the chronological list of [event]s of its result.
    - [assert] is active ([CFLAGS] of the Makefile do not define [NDEBUG]): a
      failed assertion ends the evaluation without a verdict. *)

From Stdlib Require Import ZArith String Ascii List Bool Lia Permutation.
Import ListNotations.
Open Scope Z_scope.

(** ** The OpenSSL interface used by the policy

    These are not functions of this repository: each definition follows the
    behaviour OpenSSL documents for the call ([<openssl/ct.h>],
    [<openssl/safestack.h>], [<openssl/bio.h>]). *)
Module OpenSSL.

(** [sct_source_t]: a C enumeration, so any [int] can reach the [switch]. *)
Definition sct_source_t : Type := Z.
Definition SCT_SOURCE_UNKNOWN : sct_source_t := 0.
Definition SCT_SOURCE_TLS_EXTENSION : sct_source_t := 1.
Definition SCT_SOURCE_X509V3_EXTENSION : sct_source_t := 2.
Definition SCT_SOURCE_OCSP_STAPLED_RESPONSE : sct_source_t := 3.

(** An SCT: the delivery channel, and the payload the policy only prints. *)
Record SCT : Type := mkSCT {
  sct_log_id : list Byte.byte;
  sct_timestamp : Z;
  sct_signature : list Byte.byte;
  sct_source : sct_source_t
}.

Definition SCT_get_source (sct : SCT) : sct_source_t := sct_source sct.

(** [STACK_OF(SCT)]: an array of [SCT *], each of which may be [NULL];
    the argument of the callback is a pointer to it, [None] for [NULL]. *)
Definition STACK_OF_SCT : Type := list (option SCT).

(** [sk_SCT_num]: the number of elements, or [-1] for a [NULL] stack. *)
Definition sk_SCT_num (sk : option STACK_OF_SCT) : Z :=
  match sk with
  | None => -1
  | Some elts => Z.of_nat (List.length elts)
  end.

(** [sk_SCT_value]: the element at [idx], [NULL] when the stack is [NULL]
    or [idx] is out of range. *)
Definition sk_SCT_value (sk : option STACK_OF_SCT) (idx : Z) : option SCT :=
  match sk with
  | None => None
  | Some elts =>
      if (idx <? 0) || (Z.of_nat (List.length elts) <=? idx) then None
      else nth (Z.to_nat idx) elts None
  end.

Inductive FILE : Type := stderr.

(** A BIO writing to a [FILE]. *)
Inductive BIO : Type := BIO_fp (stream : FILE).

(** Opaque handles the callback receives and never reads. *)
Definition CT_POLICY_EVAL_CTX : Type := Z.
Definition void_ptr : Type := option Z.

Definition SSL_CT_VALIDATION_PERMISSIVE : Z := 0.
Definition SSL_CT_VALIDATION_STRICT : Z := 1.

End OpenSSL.
Import OpenSSL.

(** ** Diagnostic output *)

(** One write to [stderr]: a [fprintf] with its format and integer
    arguments, or the dump of an SCT by [SCT_print] at an indentation. *)
Inductive event : Type :=
| fprintf (stream : FILE) (format : string) (args : list Z)
| SCT_print (sct : SCT) (out : BIO) (indent : Z).

Definition nl : string := String (ascii_of_nat 10) EmptyString.

Open Scope string_scope.

Definition msg_no_scts : string :=
  "No SCTs received, not considering this connection valid" ++ nl.
Definition msg_header : string := "SCTs:" ++ nl.
Definition msg_x509v3 : string :=
  "    ==> Got an SCT delivered via X509v3 (CA-signed)" ++ nl.
Definition msg_ocsp : string :=
  "    ==> Got an SCT delivered via OCSP (CA-signed)" ++ nl.
Definition msg_tls : string :=
  "    ==> Got an SCT delivered via TLS extension (not CA-signed)" ++ nl.
Definition msg_unknown : string :=
  "    ==> Got an SCT delivered via unknown source (assuming not CA-signed)" ++ nl.
Definition msg_no_signed : string :=
  "No SCTs were received via a CA-signed delivery method, "
  ++ "not considering this connection valid" ++ nl.
Definition msg_summary : string :=
  "Got %d SCTs of which %d were via CA-signed channels, "
  ++ "considering this connection valid" ++ nl.
Definition msg_not_validated : string :=
  "SCT signatures have NOT been validated" ++ nl.
Close Scope string_scope.

(** ** [on_ct_validation] *)

(** How an evaluation ends: [return rc], a failed [assert(sct)], or (in the
    fuelled loop only) more iterations than the fuel allows. *)
Inductive result : Type :=
| Returned (rc : Z) (out : list event)
| AssertionFailed (out : list event)
| OutOfFuel.

Definition Accept : Z := 1.
Definition Reject : Z := 0.

Definition verdict (r : result) : option Z :=
  match r with
  | Returned rc _ => Some rc
  | _ => None
  end.

Definition diagnostics (r : result) : list event :=
  match r with
  | Returned _ out | AssertionFailed out => out
  | OutOfFuel => []
  end.

(** The state the loop carries besides its index. *)
Record loop_state : Type := mkState {
  num_signed_sct : Z;
  written : list event
}.

Inductive loop_result : Type :=
| LoopDone (st : loop_state)
| LoopAssertionFailed (out : list event)
| LoopOutOfFuel.

(** [if (stderr_bio) { SCT_print(sct, stderr_bio, 2, NULL); fprintf(stderr, "\n"); }] *)
Definition print_sct (stderr_bio : option BIO) (sct : SCT) : list event :=
  match stderr_bio with
  | Some bio => [SCT_print sct bio 2; fprintf stderr nl []]
  | None => []
  end.

(** The [switch (SCT_get_source(sct))] of the loop: the line it prints and
    the new value of [num_signed_sct]. *)
Definition switch_source (sct : SCT) (num_signed_sct : Z) : Z * event :=
  let source := SCT_get_source sct in
  if source =? SCT_SOURCE_X509V3_EXTENSION then
    (num_signed_sct + 1, fprintf stderr msg_x509v3 [])
  else if source =? SCT_SOURCE_OCSP_STAPLED_RESPONSE then
    (num_signed_sct + 1, fprintf stderr msg_ocsp [])
  else if source =? SCT_SOURCE_TLS_EXTENSION then
    (num_signed_sct, fprintf stderr msg_tls [])
  else
    (num_signed_sct, fprintf stderr msg_unknown []).

(** One iteration of the loop on a present SCT. *)
Definition loop_body (stderr_bio : option BIO) (sct : SCT) (st : loop_state)
  : loop_state :=
  let (n, line) := switch_source sct (num_signed_sct st) in
  mkState n (written st ++ print_sct stderr_bio sct ++ [line]).

(** [for (int i = 0; i < num_sct; ++i) { ... }], started at index [i]. *)
Fixpoint classify_loop (fuel : nat) (stderr_bio : option BIO)
    (scts : option STACK_OF_SCT) (num_sct i : Z) (st : loop_state)
  : loop_result :=
  match fuel with
  | O => LoopOutOfFuel
  | S fuel' =>
      if i <? num_sct then
        match sk_SCT_value scts i with
        | None => LoopAssertionFailed (written st)
        | Some sct =>
            classify_loop fuel' stderr_bio scts num_sct (i + 1)
              (loop_body stderr_bio sct st)
        end
      else LoopDone st
  end.

(** The callback, with the fuel of its loop explicit.  [stderr_bio] is what
    [BIO_new_fp(stderr, BIO_NOCLOSE)] returned: [None] when it failed. *)
Definition on_ct_validation_fuel (fuel : nat) (stderr_bio : option BIO)
    (ctx : CT_POLICY_EVAL_CTX) (scts : option STACK_OF_SCT) (arg : void_ptr)
  : result :=
  let num_sct := sk_SCT_num scts in
  if num_sct <=? 0 then
    Returned 0 [fprintf stderr msg_no_scts []]
  else
    match classify_loop fuel stderr_bio scts num_sct 0
            (mkState 0 [fprintf stderr msg_header []]) with
    | LoopOutOfFuel => OutOfFuel
    | LoopAssertionFailed out => AssertionFailed out
    | LoopDone st =>
        if num_signed_sct st <=? 0 then
          Returned 0 (written st ++ [fprintf stderr msg_no_signed []])
        else
          Returned 1
            (written st ++
             [fprintf stderr msg_summary [num_sct; num_signed_sct st];
              fprintf stderr msg_not_validated []])
    end.

(** The loop runs at most [num_sct] iterations and one last test. *)
Definition loop_fuel (scts : option STACK_OF_SCT) : nat :=
  S (Z.to_nat (sk_SCT_num scts)).

Definition on_ct_validation (stderr_bio : option BIO)
    (ctx : CT_POLICY_EVAL_CTX) (scts : option STACK_OF_SCT) (arg : void_ptr)
  : result :=
  on_ct_validation_fuel (loop_fuel scts) stderr_bio ctx scts arg.

(** ** [configure_ct_lite_enforcement] *)

(** The type of a CT validation callback, [ssl_ct_validation_cb]; the first
    argument is the model's, see [on_ct_validation_fuel]. *)
Definition ssl_ct_validation_cb : Type :=
  option BIO -> CT_POLICY_EVAL_CTX -> option STACK_OF_SCT -> void_ptr -> result.

Section Registration.

(** The two calls belong to OpenSSL: each takes the [SSL_CTX], returns its
    [int] result and leaves the [SSL_CTX] in a new state. *)
Variable SSL_CTX : Type.
Variable SSL_CTX_enable_ct : SSL_CTX -> Z -> Z * SSL_CTX.
Variable SSL_CTX_set_ct_validation_callback :
  SSL_CTX -> ssl_ct_validation_cb -> void_ptr -> Z * SSL_CTX.

Definition configure_ct_lite_enforcement (ctx : SSL_CTX) : Z * SSL_CTX :=
  let (enabled, ctx1) := SSL_CTX_enable_ct ctx SSL_CT_VALIDATION_STRICT in
  if enabled =? 0 then (0, ctx1)
  else
    let (installed, ctx2) :=
      SSL_CTX_set_ct_validation_callback ctx1 on_ct_validation None in
    if installed =? 0 then (0, ctx2)
    else (1, ctx2).

End Registration.

(** ** Vocabulary of the properties *)

(** An SCT collection: a stack all of whose elements are present. *)
Definition stack_of (scts : list SCT) : option STACK_OF_SCT :=
  Some (map Some scts).

(** Every index below [sk_SCT_num] holds an SCT. *)
Definition all_present (scts : option STACK_OF_SCT) : Prop :=
  forall i, 0 <= i < sk_SCT_num scts -> sk_SCT_value scts i <> None.

(** Delivered through the certificate or a stapled OCSP response. *)
Definition ca_attested (sct : SCT) : Prop :=
  SCT_get_source sct = SCT_SOURCE_X509V3_EXTENSION \/
  SCT_get_source sct = SCT_SOURCE_OCSP_STAPLED_RESPONSE.

(** A source that is none of the three the [switch] names. *)
Definition unknown_source (sct : SCT) : Prop :=
  SCT_get_source sct <> SCT_SOURCE_X509V3_EXTENSION /\
  SCT_get_source sct <> SCT_SOURCE_OCSP_STAPLED_RESPONSE /\
  SCT_get_source sct <> SCT_SOURCE_TLS_EXTENSION.

Definition not_ca_attested (sct : SCT) : Prop :=
  SCT_get_source sct = SCT_SOURCE_TLS_EXTENSION \/ unknown_source sct.

Definition ca_attestedb (sct : SCT) : bool :=
  (SCT_get_source sct =? SCT_SOURCE_X509V3_EXTENSION) ||
  (SCT_get_source sct =? SCT_SOURCE_OCSP_STAPLED_RESPONSE).

(** The number of CA-attested SCTs of a collection. *)
Definition count_signed (scts : list SCT) : Z :=
  Z.of_nat (List.length (filter ca_attestedb scts)).

(** The line the [switch] prints for an SCT. *)
Definition classification_line (sct : SCT) : event :=
  snd (switch_source sct 0).

(** What one iteration writes for an SCT: its dump when the BIO exists,
    then its classification. *)
Definition sct_record (stderr_bio : option BIO) (sct : SCT) : list event :=
  print_sct stderr_bio sct ++ [classification_line sct].

(** The loop as a recursion over the elements still to visit. *)
Fixpoint classify_elements (stderr_bio : option BIO)
    (rest : STACK_OF_SCT) (st : loop_state) : loop_result :=
  match rest with
  | [] => LoopDone st
  | None :: _ => LoopAssertionFailed (written st)
  | Some sct :: rest' =>
      classify_elements stderr_bio rest' (loop_body stderr_bio sct st)
  end.

(** The integer arguments of an event. *)
Definition event_args (e : event) : list Z :=
  match e with
  | fprintf _ _ args => args
  | SCT_print _ _ _ => []
  end.

(** Sample SCTs, one per source, with distinct payloads. *)
Definition sct_x509v3 : SCT :=
  mkSCT [Byte.x01] 1700000000000 [Byte.xaa] SCT_SOURCE_X509V3_EXTENSION.
Definition sct_ocsp : SCT :=
  mkSCT [Byte.x02] 1700000000001 [Byte.xbb] SCT_SOURCE_OCSP_STAPLED_RESPONSE.
Definition sct_tls : SCT :=
  mkSCT [Byte.x03] 1700000000002 [Byte.xcc] SCT_SOURCE_TLS_EXTENSION.
Definition sct_unknown : SCT :=
  mkSCT [Byte.x04] 1700000000003 [Byte.xdd] SCT_SOURCE_UNKNOWN.
Definition sct_future : SCT :=
  mkSCT [Byte.x05] 1700000000004 [Byte.xee] 7.

Definition bio_stderr : option BIO := Some (BIO_fp stderr).

(** What the callback does on a collection, read off the collection alone:
    [on_ct_validation_collection] proves that the code computes this. *)
Definition collection_result (stderr_bio : option BIO) (scts : list SCT)
  : result :=
  match scts with
  | [] => Returned Reject [fprintf stderr msg_no_scts []]
  | _ :: _ =>
      let records :=
        fprintf stderr msg_header [] :: flat_map (sct_record stderr_bio) scts in
      if count_signed scts <=? 0 then
        Returned Reject (records ++ [fprintf stderr msg_no_signed []])
      else
        Returned Accept
          (records ++
           [fprintf stderr msg_summary
              [Z.of_nat (List.length scts); count_signed scts];
            fprintf stderr msg_not_validated []])
  end.

(** Two SCTs with the sources of [sct_x509v3] and [sct_tls] and other
    payloads. *)
Definition sct_x509v3' : SCT :=
  mkSCT [Byte.x10; Byte.x11] 42 [] SCT_SOURCE_X509V3_EXTENSION.
Definition sct_tls' : SCT :=
  mkSCT [] 43 [Byte.xff] SCT_SOURCE_TLS_EXTENSION.

(** A toy TLS layer for [configure_ct_lite_enforcement]: as OpenSSL
    documents, both calls fail when a custom client extension already
    handles SCTs, and enabling fails on a validation mode it does not know. *)
Module ToyTLS.

Record SSL_CTX : Type := mkCtx {
  custom_sct_extension : bool;
  ct_validation_callback : option (ssl_ct_validation_cb * void_ptr);
  steps : list string
}.

Definition builtin_strict : ssl_ct_validation_cb :=
  fun _ _ _ _ => Returned 0 [].

Definition SSL_CTX_set_ct_validation_callback (ctx : SSL_CTX)
    (callback : ssl_ct_validation_cb) (arg : void_ptr) : Z * SSL_CTX :=
  if custom_sct_extension ctx then (0, ctx)
  else (1, mkCtx false (Some (callback, arg))
             (steps ctx ++ ["set_ct_validation_callback"%string])).

Definition SSL_CTX_enable_ct (ctx : SSL_CTX) (validation_mode : Z)
  : Z * SSL_CTX :=
  if validation_mode =? SSL_CT_VALIDATION_STRICT then
    if custom_sct_extension ctx then (0, ctx)
    else (1, mkCtx false (Some (builtin_strict, None))
               (steps ctx ++ ["enable_ct"%string]))
  else (0, ctx).

Definition configure (ctx : SSL_CTX) : Z * SSL_CTX :=
  configure_ct_lite_enforcement SSL_CTX SSL_CTX_enable_ct
    SSL_CTX_set_ct_validation_callback ctx.

End ToyTLS.

(** An event of the dump of an SCT: [SCT_print] or the empty line after
    it. *)
Definition is_dump (e : event) : bool :=
  match e with
  | SCT_print _ _ _ => true
  | fprintf _ format _ => String.eqb format nl
  end.

(** ** [main] *)

(** [SSL_VERIFY_PEER] and [TLS1_2_VERSION] of [<openssl/ssl.h>]. *)
Definition SSL_VERIFY_PEER : Z := 1.
Definition TLS1_2_VERSION : Z := 771.

(** The OpenSSL calls of [main].  An [SSL_CTX] or a connection BIO is the
    state of the object behind the pointer: a call that can change the
    object returns its new state beside its C result.  The [SSL] that
    [BIO_get_ssl] hands out lives in the connection BIO, so [SSL_set1_host]
    acts on the BIO's state.  [SSL_CTX_new] is the result of
    [SSL_CTX_new(TLS_client_method())], [None] for [NULL]. *)
Record tls_library (SSL_CTX CONN : Type) : Type := mkLibrary {
  SSL_CTX_new : option SSL_CTX;
  SSL_CTX_set_verify : SSL_CTX -> Z -> SSL_CTX;
  SSL_CTX_set_default_verify_paths : SSL_CTX -> Z * SSL_CTX;
  SSL_CTX_set_min_proto_version : SSL_CTX -> Z -> Z * SSL_CTX;
  SSL_CTX_enable_ct : SSL_CTX -> Z -> Z * SSL_CTX;
  SSL_CTX_set_ct_validation_callback :
    SSL_CTX -> ssl_ct_validation_cb -> void_ptr -> Z * SSL_CTX;
  BIO_new_ssl_connect : SSL_CTX -> option CONN;
  BIO_get_ssl : CONN -> Z;
  BIO_set_conn_hostname : CONN -> string -> Z * CONN;
  BIO_get_conn_hostname : CONN -> option string;
  SSL_set1_host : CONN -> string -> Z * CONN;
  BIO_do_handshake : CONN -> Z * CONN
}.

Arguments SSL_CTX_new {SSL_CTX CONN} _.
Arguments SSL_CTX_set_verify {SSL_CTX CONN} _ _ _.
Arguments SSL_CTX_set_default_verify_paths {SSL_CTX CONN} _ _.
Arguments SSL_CTX_set_min_proto_version {SSL_CTX CONN} _ _ _.
Arguments SSL_CTX_enable_ct {SSL_CTX CONN} _ _ _.
Arguments SSL_CTX_set_ct_validation_callback {SSL_CTX CONN} _ _ _ _.
Arguments BIO_new_ssl_connect {SSL_CTX CONN} _ _.
Arguments BIO_get_ssl {SSL_CTX CONN} _ _.
Arguments BIO_set_conn_hostname {SSL_CTX CONN} _ _ _.
Arguments BIO_get_conn_hostname {SSL_CTX CONN} _ _.
Arguments SSL_set1_host {SSL_CTX CONN} _ _ _.
Arguments BIO_do_handshake {SSL_CTX CONN} _ _.

(** What [main] itself does that can be seen from outside: its lines on
    [stderr], the dump of the error queue, and the two releases.  What the
    callback writes during the handshake is not part of it. *)
Inductive main_event (SSL_CTX CONN : Type) : Type :=
| Print (e : event)
| PrintUsage (stream : FILE) (format : string) (program : option string)
| ERR_print_errors_fp (stream : FILE)
| BIO_free_all (bio : option CONN)
| SSL_CTX_free (ctx : option SSL_CTX).

Arguments Print {SSL_CTX CONN} _.
Arguments PrintUsage {SSL_CTX CONN} _ _ _.
Arguments ERR_print_errors_fp {SSL_CTX CONN} _.
Arguments BIO_free_all {SSL_CTX CONN} _.
Arguments SSL_CTX_free {SSL_CTX CONN} _.

Open Scope string_scope.
Definition msg_usage : string := "usage: %s <hostname:port>" ++ nl.
Definition msg_connected : string := "Successfully connected" ++ nl.
Close Scope string_scope.

Section Main.

Variables SSL_CTX CONN : Type.
Variable lib : tls_library SSL_CTX CONN.

(** The label [err:] with the value of [rc], what [main] wrote so far and
    the two pointers as they are when it is reached. *)
Definition main_err (rc : Z) (out : list (main_event SSL_CTX CONN))
    (bio : option CONN) (ctx : option SSL_CTX)
  : Z * list (main_event SSL_CTX CONN) :=
  (rc,
   out ++ (if rc =? 0 then [] else [ERR_print_errors_fp stderr])
       ++ [BIO_free_all bio; SSL_CTX_free ctx]).

(** [main]: [argv] holds the [argc] arguments, [argv[0]] first. *)
Definition main (argv : list string) : Z * list (main_event SSL_CTX CONN) :=
  let argc := Z.of_nat (List.length argv) in
  if argc <? 2 then
    main_err 1 [PrintUsage stderr msg_usage (nth_error argv 0)] None None
  else
    let hostname := nth 1 argv EmptyString in
    match SSL_CTX_new lib with
    | None => main_err 1 [] None None
    | Some ctx =>
    let ctx := SSL_CTX_set_verify lib ctx SSL_VERIFY_PEER in
    let (paths, ctx) := SSL_CTX_set_default_verify_paths lib ctx in
    if paths =? 0 then main_err 1 [] None (Some ctx) else
    let (proto, ctx) := SSL_CTX_set_min_proto_version lib ctx TLS1_2_VERSION in
    if proto =? 0 then main_err 1 [] None (Some ctx) else
    let (configured, ctx) :=
      configure_ct_lite_enforcement SSL_CTX (SSL_CTX_enable_ct lib)
        (SSL_CTX_set_ct_validation_callback lib) ctx in
    if configured =? 0 then main_err 1 [] None (Some ctx) else
    match BIO_new_ssl_connect lib ctx with
    | None => main_err 1 [] None (Some ctx)
    | Some bio =>
    if BIO_get_ssl lib bio =? 0 then main_err 1 [] (Some bio) (Some ctx) else
    let (named, bio) := BIO_set_conn_hostname lib bio hostname in
    if named =? 0 then main_err 1 [] (Some bio) (Some ctx) else
    match BIO_get_conn_hostname lib bio with
    | None => main_err 1 [] (Some bio) (Some ctx)
    | Some bare_hostname =>
    let (host, bio) := SSL_set1_host lib bio bare_hostname in
    if host =? 0 then main_err 1 [] (Some bio) (Some ctx) else
    let (handshake, bio) := BIO_do_handshake lib bio in
    if handshake <=? 0 then main_err 1 [] (Some bio) (Some ctx) else
    main_err 0 [Print (fprintf stderr msg_connected [])] (Some bio) (Some ctx)
    end
    end
    end.

(** The context on which [main] calls [configure_ct_lite_enforcement]. *)
Definition prepared_context (ctx : SSL_CTX) : Prop :=
  exists (fresh : SSL_CTX) (paths proto : Z) (with_paths : SSL_CTX),
    SSL_CTX_new lib = Some fresh
    /\ SSL_CTX_set_default_verify_paths lib
         (SSL_CTX_set_verify lib fresh SSL_VERIFY_PEER) = (paths, with_paths)
    /\ paths <> 0
    /\ SSL_CTX_set_min_proto_version lib with_paths TLS1_2_VERSION
       = (proto, ctx)
    /\ proto <> 0.

(** Both CT steps succeed from [ctx] and leave [enforcing]. *)
Definition ct_enforced (ctx enforcing : SSL_CTX) : Prop :=
  fst (SSL_CTX_enable_ct lib ctx SSL_CT_VALIDATION_STRICT) <> 0
  /\ fst (SSL_CTX_set_ct_validation_callback lib
            (snd (SSL_CTX_enable_ct lib ctx SSL_CT_VALIDATION_STRICT))
            on_ct_validation None) <> 0
  /\ enforcing
     = snd (SSL_CTX_set_ct_validation_callback lib
              (snd (SSL_CTX_enable_ct lib ctx SSL_CT_VALIDATION_STRICT))
              on_ct_validation None).

(** The steps of [main] on a connection BIO [bio], up to a handshake with
    a positive result, for the argument [hostname]. *)
Definition connected_from (bio : CONN) (hostname : string) (final : CONN)
  : Prop :=
  exists (named host handshake : Z) (with_name checked : CONN)
         (bare_hostname : string),
    BIO_get_ssl lib bio <> 0
    /\ BIO_set_conn_hostname lib bio hostname = (named, with_name)
    /\ named <> 0
    /\ BIO_get_conn_hostname lib with_name = Some bare_hostname
    /\ SSL_set1_host lib with_name bare_hostname = (host, checked)
    /\ host <> 0
    /\ BIO_do_handshake lib checked = (handshake, final)
    /\ 0 < handshake.

(** [configure_ct_lite_enforcement] on the calls of the library. *)
Definition configure_on (ctx : SSL_CTX) : Z * SSL_CTX :=
  configure_ct_lite_enforcement SSL_CTX (SSL_CTX_enable_ct lib)
    (SSL_CTX_set_ct_validation_callback lib) ctx.

(** Everything [main] needs for a connection, with the context and the
    connection BIO it ends with. *)
Definition established (argv : list string) (enforcing : SSL_CTX)
    (final : CONN) : Prop :=
  exists (hostname : string) (ctx : SSL_CTX) (bio : CONN),
    nth_error argv 1 = Some hostname
    /\ prepared_context ctx
    /\ ct_enforced ctx enforcing
    /\ BIO_new_ssl_connect lib enforcing = Some bio
    /\ connected_from bio hostname final.

(** A connection BIO was made from [enforcing], a context prepared by
    [main] on which both CT steps succeeded. *)
Definition ct_connection (enforcing : SSL_CTX) : Prop :=
  exists (ctx : SSL_CTX) (bio : CONN),
    prepared_context ctx
    /\ ct_enforced ctx enforcing
    /\ BIO_new_ssl_connect lib enforcing = Some bio.

Definition is_release (e : main_event SSL_CTX CONN) : bool :=
  match e with
  | BIO_free_all _ | SSL_CTX_free _ => true
  | _ => false
  end.

End Main.

Arguments main_err {SSL_CTX CONN} _ _ _ _.
Arguments main {SSL_CTX CONN} _ _.
Arguments prepared_context {SSL_CTX CONN} _ _.
Arguments ct_enforced {SSL_CTX CONN} _ _ _.
Arguments connected_from {SSL_CTX CONN} _ _ _ _.
Arguments is_release {SSL_CTX CONN} _.
Arguments configure_on {SSL_CTX CONN} _ _.
Arguments established {SSL_CTX CONN} _ _ _ _.
Arguments ct_connection {SSL_CTX CONN} _ _.

(** A toy TLS library on the contexts of [ToyTLS]: a connection records
    the context it was made from, the peer and the name to check; the
    handshake succeeds when the name to check is [good_host]. *)
Module ToyClient.

Record CONN : Type := mkConn {
  conn_ctx : ToyTLS.SSL_CTX;
  conn_peer : option string;
  conn_host : option string;
  conn_done : bool
}.

Fixpoint before_colon (s : string) : string :=
  match s with
  | EmptyString => EmptyString
  | String c rest =>
      if Ascii.eqb c ":"%char then EmptyString
      else String c (before_colon rest)
  end.

Definition good_host : string := "ct.example"%string.

Definition note (step : string) (ctx : ToyTLS.SSL_CTX) : ToyTLS.SSL_CTX :=
  ToyTLS.mkCtx (ToyTLS.custom_sct_extension ctx)
    (ToyTLS.ct_validation_callback ctx) (ToyTLS.steps ctx ++ [step]).

Definition library (fresh : option ToyTLS.SSL_CTX)
  : tls_library ToyTLS.SSL_CTX CONN :=
  mkLibrary ToyTLS.SSL_CTX CONN
    fresh
    (fun ctx _ => note "set_verify"%string ctx)
    (fun ctx => (1, note "set_default_verify_paths"%string ctx))
    (fun ctx _ => (1, note "set_min_proto_version"%string ctx))
    ToyTLS.SSL_CTX_enable_ct
    ToyTLS.SSL_CTX_set_ct_validation_callback
    (fun ctx => Some (mkConn ctx None None false))
    (fun _ => 1)
    (fun bio name =>
       (1, mkConn (conn_ctx bio) (Some name) (conn_host bio) (conn_done bio)))
    (fun bio => option_map before_colon (conn_peer bio))
    (fun bio name =>
       (1, mkConn (conn_ctx bio) (conn_peer bio) (Some name) (conn_done bio)))
    (fun bio =>
       match conn_host bio with
       | Some name =>
           if String.eqb name good_host
           then (1, mkConn (conn_ctx bio) (conn_peer bio) (conn_host bio) true)
           else (-1, bio)
       | None => (-1, bio)
       end).

Definition fresh_ctx : ToyTLS.SSL_CTX := ToyTLS.mkCtx false None [].
Definition clashing_ctx : ToyTLS.SSL_CTX := ToyTLS.mkCtx true None [].

(** The context [main] prepares from [fresh], and what registration makes
    of it. *)
Definition prepared (fresh : ToyTLS.SSL_CTX) : ToyTLS.SSL_CTX :=
  note "set_min_proto_version"%string
    (note "set_default_verify_paths"%string
       (note "set_verify"%string fresh)).
Definition enforcing (fresh : ToyTLS.SSL_CTX) : ToyTLS.SSL_CTX :=
  snd (configure_on (library (Some fresh)) (prepared fresh)).

Definition argv_good : list string :=
  ["client"%string; "ct.example:443"%string].
Definition argv_other : list string :=
  ["client"%string; "other.example:443"%string].

End ToyClient.

(** ** The loop *)

Lemma sk_SCT_value_middle (before rest : STACK_OF_SCT) (elt : option SCT) :
  sk_SCT_value (Some (before ++ elt :: rest)) (Z.of_nat (List.length before))
  = elt.
Proof.
  unfold sk_SCT_value.
  rewrite length_app; cbn [List.length].
  replace (Z.of_nat (List.length before) <? 0) with false
    by (symmetry; apply Z.ltb_ge; lia).
  replace (Z.of_nat (List.length before + S (List.length rest))
           <=? Z.of_nat (List.length before)) with false
    by (symmetry; apply Z.leb_gt; lia).
  cbn [orb]. rewrite Nat2Z.id. apply nth_middle.
Qed.

(** With fuel for every element still to visit and the last test, the
    indexed loop visits the elements from [i] on, in order. *)
Lemma classify_loop_elements (stderr_bio : option BIO) (rest : STACK_OF_SCT) :
  forall (before : STACK_OF_SCT) (fuel : nat) (st : loop_state),
    (List.length rest < fuel)%nat ->
    classify_loop fuel stderr_bio (Some (before ++ rest))
      (sk_SCT_num (Some (before ++ rest))) (Z.of_nat (List.length before)) st
    = classify_elements stderr_bio rest st.
Proof.
  induction rest as [|elt rest IH]; intros before fuel st Hfuel;
    (destruct fuel as [|fuel]; [cbn in Hfuel; lia|]); cbn [classify_loop].
  - rewrite app_nil_r. cbn [sk_SCT_num].
    rewrite Z.ltb_irrefl. reflexivity.
  - replace (Z.of_nat (List.length before)
             <? sk_SCT_num (Some (before ++ elt :: rest))) with true
      by (symmetry; apply Z.ltb_lt; cbn [sk_SCT_num];
          rewrite length_app; cbn [List.length]; lia).
    rewrite sk_SCT_value_middle.
    destruct elt as [sct|]; cbn [classify_elements]; [|reflexivity].
    specialize (IH (before ++ [Some sct]) fuel (loop_body stderr_bio sct st)).
    rewrite <- app_assoc in IH. cbn [app] in IH.
    rewrite length_app in IH. cbn [List.length] in IH.
    replace (Z.of_nat (List.length before + 1))
      with (Z.of_nat (List.length before) + 1) in IH by lia.
    apply IH. cbn in Hfuel. lia.
Qed.

Lemma loop_body_num_signed (stderr_bio : option BIO) (sct : SCT)
    (st : loop_state) :
  num_signed_sct (loop_body stderr_bio sct st)
  = num_signed_sct st + (if ca_attestedb sct then 1 else 0).
Proof.
  unfold loop_body, switch_source, ca_attestedb.
  destruct (SCT_get_source sct =? SCT_SOURCE_X509V3_EXTENSION);
    [cbn; reflexivity|].
  destruct (SCT_get_source sct =? SCT_SOURCE_OCSP_STAPLED_RESPONSE);
    [cbn; reflexivity|].
  destruct (SCT_get_source sct =? SCT_SOURCE_TLS_EXTENSION); cbn; lia.
Qed.

Lemma loop_body_written (stderr_bio : option BIO) (sct : SCT)
    (st : loop_state) :
  written (loop_body stderr_bio sct st)
  = written st ++ sct_record stderr_bio sct.
Proof.
  unfold loop_body, sct_record, classification_line, switch_source.
  destruct (SCT_get_source sct =? SCT_SOURCE_X509V3_EXTENSION);
    [reflexivity|].
  destruct (SCT_get_source sct =? SCT_SOURCE_OCSP_STAPLED_RESPONSE);
    [reflexivity|].
  destruct (SCT_get_source sct =? SCT_SOURCE_TLS_EXTENSION); reflexivity.
Qed.

Lemma loop_state_eq (a b : loop_state) :
  num_signed_sct a = num_signed_sct b -> written a = written b -> a = b.
Proof. destruct a, b; cbn; intros -> ->; reflexivity. Qed.

Lemma count_signed_cons (sct : SCT) (scts : list SCT) :
  count_signed (sct :: scts)
  = (if ca_attestedb sct then 1 else 0) + count_signed scts.
Proof.
  unfold count_signed; cbn [filter].
  destruct (ca_attestedb sct); cbn [List.length]; lia.
Qed.

Lemma count_signed_nonneg (scts : list SCT) : 0 <= count_signed scts.
Proof. unfold count_signed; lia. Qed.

Lemma count_signed_le_length (scts : list SCT) :
  count_signed scts <= Z.of_nat (List.length scts).
Proof.
  unfold count_signed. pose proof (filter_length_le ca_attestedb scts). lia.
Qed.

(** On a collection the loop never trips the assertion: it counts the
    CA-attested SCTs and writes one record per SCT, in order. *)
Lemma classify_elements_collection (stderr_bio : option BIO) (scts : list SCT) :
  forall st : loop_state,
    classify_elements stderr_bio (map Some scts) st
    = LoopDone
        (mkState (num_signed_sct st + count_signed scts)
           (written st ++ flat_map (sct_record stderr_bio) scts)).
Proof.
  induction scts as [|sct scts IH]; intro st; cbn [map classify_elements].
  - f_equal. apply loop_state_eq; cbn.
    + unfold count_signed; cbn; lia.
    + now rewrite app_nil_r.
  - rewrite IH. f_equal. apply loop_state_eq; cbn [num_signed_sct written].
    + rewrite loop_body_num_signed, count_signed_cons. lia.
    + rewrite loop_body_written. cbn [flat_map]. now rewrite app_assoc.
Qed.

(** The callback on a stack, through the element-wise loop. *)
Lemma on_ct_validation_fuel_elements (fuel : nat) (stderr_bio : option BIO)
    (ctx : CT_POLICY_EVAL_CTX) (elts : STACK_OF_SCT) (arg : void_ptr) :
  (List.length elts < fuel)%nat ->
  on_ct_validation_fuel fuel stderr_bio ctx (Some elts) arg
  = if Z.of_nat (List.length elts) <=? 0 then
      Returned 0 [fprintf stderr msg_no_scts []]
    else
      match classify_elements stderr_bio elts
              (mkState 0 [fprintf stderr msg_header []]) with
      | LoopOutOfFuel => OutOfFuel
      | LoopAssertionFailed out => AssertionFailed out
      | LoopDone st =>
          if num_signed_sct st <=? 0 then
            Returned 0 (written st ++ [fprintf stderr msg_no_signed []])
          else
            Returned 1
              (written st ++
               [fprintf stderr msg_summary
                  [Z.of_nat (List.length elts); num_signed_sct st];
                fprintf stderr msg_not_validated []])
      end.
Proof.
  intro Hfuel. unfold on_ct_validation_fuel.
  pose proof (classify_loop_elements stderr_bio elts [] fuel
                (mkState 0 [fprintf stderr msg_header []]) Hfuel) as Hloop.
  cbn [app] in Hloop.
  rewrite <- Hloop. reflexivity.
Qed.

(** More fuel than [loop_fuel] changes nothing. *)
Lemma on_ct_validation_fuel_enough (fuel : nat) (stderr_bio : option BIO)
    (ctx : CT_POLICY_EVAL_CTX) (scts : option STACK_OF_SCT) (arg : void_ptr) :
  (loop_fuel scts <= fuel)%nat ->
  on_ct_validation_fuel fuel stderr_bio ctx scts arg
  = on_ct_validation stderr_bio ctx scts arg.
Proof.
  intro Hfuel. unfold on_ct_validation. destruct scts as [elts|].
  - unfold loop_fuel in *. cbn [sk_SCT_num] in *. rewrite Nat2Z.id in *.
    rewrite !on_ct_validation_fuel_elements by lia. reflexivity.
  - reflexivity.
Qed.

Lemma classify_elements_fuel_free (stderr_bio : option BIO)
    (rest : STACK_OF_SCT) :
  forall st : loop_state,
    classify_elements stderr_bio rest st <> LoopOutOfFuel.
Proof.
  induction rest as [|[sct|] rest IH]; intro st; cbn [classify_elements];
    [discriminate|apply IH|discriminate].
Qed.

(** The fuel the callback gives its loop always suffices. *)
Lemma on_ct_validation_fuel_suffices (stderr_bio : option BIO)
    (ctx : CT_POLICY_EVAL_CTX) (scts : option STACK_OF_SCT) (arg : void_ptr) :
  on_ct_validation stderr_bio ctx scts arg <> OutOfFuel.
Proof.
  unfold on_ct_validation. destruct scts as [elts|]; [|discriminate].
  unfold loop_fuel. cbn [sk_SCT_num].
  rewrite Nat2Z.id, on_ct_validation_fuel_elements by lia.
  destruct (Z.of_nat (List.length elts) <=? 0); [discriminate|].
  pose proof (classify_elements_fuel_free stderr_bio elts
                (mkState 0 [fprintf stderr msg_header []])) as Hfree.
  destruct (classify_elements stderr_bio elts
              (mkState 0 [fprintf stderr msg_header []])) as [st|out|];
    [|discriminate|contradiction].
  destruct (num_signed_sct st <=? 0); discriminate.
Qed.

(** The callback on a collection. *)
Lemma on_ct_validation_collection (stderr_bio : option BIO)
    (ctx : CT_POLICY_EVAL_CTX) (scts : list SCT) (arg : void_ptr) :
  on_ct_validation stderr_bio ctx (stack_of scts) arg
  = collection_result stderr_bio scts.
Proof.
  unfold on_ct_validation, stack_of, loop_fuel. cbn [sk_SCT_num].
  rewrite Nat2Z.id, on_ct_validation_fuel_elements by lia.
  rewrite length_map. destruct scts as [|sct scts]; [reflexivity|].
  replace (Z.of_nat (List.length (sct :: scts)) <=? 0) with false
    by (symmetry; apply Z.leb_gt; cbn [List.length]; lia).
  rewrite classify_elements_collection. cbn [num_signed_sct written].
  unfold collection_result. rewrite Z.add_0_l. reflexivity.
Qed.

(** The counter of CA-signed SCTs never decreases and grows by at most one
    per index visited: from [i = 0] and [num_signed_sct = 0] it ends between
    [0] and [num_sct]. *)
Lemma classify_loop_int_range (stderr_bio : option BIO)
    (scts : option STACK_OF_SCT) (num_sct : Z) :
  forall (fuel : nat) (i : Z) (st st' : loop_state),
    i <= num_sct ->
    classify_loop fuel stderr_bio scts num_sct i st = LoopDone st' ->
    num_signed_sct st <= num_signed_sct st' <= num_signed_sct st + (num_sct - i).
Proof.
  induction fuel as [|fuel IH]; intros i st st' Hi Hrun; cbn in Hrun;
    [discriminate|].
  destruct (Z.ltb_spec i num_sct) as [Hlt|Hge].
  - destruct (sk_SCT_value scts i) as [sct|]; [|discriminate].
    apply IH in Hrun; [|lia].
    rewrite loop_body_num_signed in Hrun.
    destruct (ca_attestedb sct); lia.
  - injection Hrun as <-. lia.
Qed.

(** ** The verdict on a collection *)

Lemma verdict_collection (stderr_bio : option BIO) (ctx : CT_POLICY_EVAL_CTX)
    (scts : list SCT) (arg : void_ptr) :
  verdict (on_ct_validation stderr_bio ctx (stack_of scts) arg)
  = Some (if count_signed scts <=? 0 then Reject else Accept).
Proof.
  rewrite on_ct_validation_collection. destruct scts as [|sct scts].
  - reflexivity.
  - unfold collection_result.
    destruct (count_signed (sct :: scts) <=? 0); reflexivity.
Qed.

Lemma ca_attestedb_iff (sct : SCT) :
  ca_attestedb sct = true <-> ca_attested sct.
Proof.
  unfold ca_attestedb, ca_attested.
  rewrite orb_true_iff, !Z.eqb_eq. reflexivity.
Qed.

Lemma not_ca_attested_false (sct : SCT) :
  not_ca_attested sct -> ca_attestedb sct = false.
Proof.
  intro H. destruct (ca_attestedb sct) eqn:E; [|reflexivity].
  apply ca_attestedb_iff in E.
  unfold not_ca_attested, unknown_source, ca_attested in *.
  unfold SCT_SOURCE_X509V3_EXTENSION, SCT_SOURCE_OCSP_STAPLED_RESPONSE,
    SCT_SOURCE_TLS_EXTENSION in *.
  lia.
Qed.

Lemma count_signed_pos (sct : SCT) (scts : list SCT) :
  In sct scts -> ca_attested sct -> 0 < count_signed scts.
Proof.
  intros Hin Hca. apply ca_attestedb_iff in Hca.
  assert (Hf : In sct (filter ca_attestedb scts))
    by (apply filter_In; split; assumption).
  unfold count_signed.
  destruct (filter ca_attestedb scts); [contradiction|cbn [List.length]; lia].
Qed.

Lemma count_signed_zero (scts : list SCT) :
  (forall sct, In sct scts -> not_ca_attested sct) -> count_signed scts = 0.
Proof.
  induction scts as [|sct scts IH]; intro Hall; [reflexivity|].
  rewrite count_signed_cons, IH by (intros; apply Hall; now right).
  rewrite not_ca_attested_false by (apply Hall; now left). reflexivity.
Qed.

Lemma count_signed_app (scts more : list SCT) :
  count_signed (scts ++ more) = count_signed scts + count_signed more.
Proof.
  unfold count_signed. rewrite filter_app, length_app. lia.
Qed.

Lemma count_signed_sources (scts scts' : list SCT) :
  map SCT_get_source scts = map SCT_get_source scts' ->
  count_signed scts = count_signed scts'.
Proof.
  revert scts'. induction scts as [|a scts IH]; intros [|b scts'] Hsrc;
    try discriminate; [reflexivity|].
  cbn [map] in Hsrc. injection Hsrc as Hhd Htl.
  rewrite !count_signed_cons, (IH _ Htl).
  unfold ca_attestedb. rewrite Hhd. reflexivity.
Qed.

Lemma count_signed_Permutation (scts scts' : list SCT) :
  Permutation scts scts' -> count_signed scts = count_signed scts'.
Proof.
  induction 1 as [|a l l' _ IH|a b l|l l' l'' _ IH1 _ IH2];
    rewrite ?count_signed_cons; lia.
Qed.

(** A stack all of whose elements are present is a collection. *)
Lemma all_present_collection (elts : STACK_OF_SCT) :
  all_present (Some elts) -> exists scts : list SCT, Some elts = stack_of scts.
Proof.
  unfold all_present, stack_of. cbn [sk_SCT_num].
  induction elts as [|elt elts IH]; intro Hall; [now exists []|].
  destruct IH as [scts Hscts].
  - intros i Hi. specialize (Hall (i + 1)).
    cbn [List.length sk_SCT_value] in Hall |- *.
    replace ((i + 1 <? 0) || (Z.of_nat (S (List.length elts)) <=? i + 1))
      with false in Hall
      by (symmetry; apply orb_false_iff; split;
          [apply Z.ltb_ge|apply Z.leb_gt]; lia).
    replace ((i <? 0) || (Z.of_nat (List.length elts) <=? i))
      with false
      by (symmetry; apply orb_false_iff; split;
          [apply Z.ltb_ge|apply Z.leb_gt]; lia).
    replace (Z.to_nat (i + 1)) with (S (Z.to_nat i)) in Hall by lia.
    apply Hall. lia.
  - injection Hscts as ->.
    destruct elt as [sct|].
    + now exists (sct :: scts).
    + exfalso. apply (Hall 0); [cbn [List.length]; lia|reflexivity].
Qed.

(** ** The scenarios of the specification *)

Example scenario_A :
  on_ct_validation bio_stderr 0 (stack_of []) None
  = Returned Reject [fprintf stderr msg_no_scts []].
Proof. reflexivity. Qed.

Example scenario_B :
  on_ct_validation bio_stderr 0 (stack_of [sct_tls]) None
  = Returned Reject
      [fprintf stderr msg_header [];
       SCT_print sct_tls (BIO_fp stderr) 2; fprintf stderr nl [];
       fprintf stderr msg_tls [];
       fprintf stderr msg_no_signed []].
Proof. reflexivity. Qed.

Example scenario_C :
  on_ct_validation bio_stderr 0 (stack_of [sct_x509v3]) None
  = Returned Accept
      [fprintf stderr msg_header [];
       SCT_print sct_x509v3 (BIO_fp stderr) 2; fprintf stderr nl [];
       fprintf stderr msg_x509v3 [];
       fprintf stderr msg_summary [1; 1];
       fprintf stderr msg_not_validated []].
Proof. reflexivity. Qed.

Example scenario_D :
  verdict (on_ct_validation bio_stderr 0
             (stack_of [sct_ocsp; sct_tls; sct_unknown]) None)
  = Some Accept.
Proof. reflexivity. Qed.

Example scenario_E :
  verdict (on_ct_validation None 0 (stack_of [sct_unknown; sct_future]) None)
  = Some Reject.
Proof. reflexivity. Qed.

(** ** Properties of the policy *)

(** C1: a collection that holds at least one SCT delivered through the
    certificate (X509v3 extension) or a stapled OCSP response is accepted,
    whatever other SCTs it holds. *)
Theorem ca_attested_sct_accepts (stderr_bio : option BIO)
    (ctx : CT_POLICY_EVAL_CTX) (scts : list SCT) (arg : void_ptr) (sct : SCT) :
  In sct scts -> ca_attested sct ->
  verdict (on_ct_validation stderr_bio ctx (stack_of scts) arg) = Some Accept.
Proof.
  intros Hin Hca. rewrite verdict_collection.
  pose proof (count_signed_pos sct scts Hin Hca) as Hpos.
  replace (count_signed scts <=? 0) with false
    by (symmetry; apply Z.leb_gt; exact Hpos).
  reflexivity.
Qed.

Lemma ca_attested_sct_accepts_witness :
  verdict (on_ct_validation bio_stderr 0
             (stack_of [sct_tls; sct_unknown; sct_ocsp; sct_future; sct_tls])
             None)
  = Some Accept.
Proof.
  apply (ca_attested_sct_accepts bio_stderr 0
           [sct_tls; sct_unknown; sct_ocsp; sct_future; sct_tls] None sct_ocsp).
  - simpl. auto.
  - right. reflexivity.
Defined.

(** C2: a non-empty collection whose SCTs all come from the TLS extension
    or from an unrecognised source is rejected; the loop ends with
    [num_signed_sct = 0]. *)
Theorem unattested_only_rejects (stderr_bio : option BIO)
    (ctx : CT_POLICY_EVAL_CTX) (scts : list SCT) (arg : void_ptr) :
  scts <> [] ->
  (forall sct, In sct scts -> not_ca_attested sct) ->
  verdict (on_ct_validation stderr_bio ctx (stack_of scts) arg) = Some Reject
  /\ exists st,
       classify_loop (loop_fuel (stack_of scts)) stderr_bio (stack_of scts)
         (sk_SCT_num (stack_of scts)) 0
         (mkState 0 [fprintf stderr msg_header []]) = LoopDone st
       /\ num_signed_sct st = 0.
Proof.
  intros _ Hall. pose proof (count_signed_zero scts Hall) as Hzero. split.
  - rewrite verdict_collection, Hzero. reflexivity.
  - pose proof (classify_loop_elements stderr_bio (map Some scts) []
                  (loop_fuel (stack_of scts))
                  (mkState 0 [fprintf stderr msg_header []])) as Hloop.
    cbn [app List.length Z.of_nat] in Hloop. unfold stack_of at 2 3.
    rewrite Hloop
      by (unfold loop_fuel, stack_of; cbn [sk_SCT_num]; rewrite Nat2Z.id; lia).
    rewrite classify_elements_collection. eexists. split; [reflexivity|].
    cbn [num_signed_sct]. lia.
Qed.

Lemma unattested_only_rejects_witness :
  verdict (on_ct_validation bio_stderr 0
             (stack_of [sct_tls; sct_unknown; sct_future]) None)
  = Some Reject.
Proof.
  apply (unattested_only_rejects bio_stderr 0
           [sct_tls; sct_unknown; sct_future] None).
  - discriminate.
  - intros sct [<-|[<-|[<-|[]]]].
    + left. reflexivity.
    + right. repeat split; discriminate.
    + right. repeat split; discriminate.
Defined.

(** C3: the empty collection is rejected. *)
Theorem empty_collection_rejects (stderr_bio : option BIO)
    (ctx : CT_POLICY_EVAL_CTX) (arg : void_ptr) :
  verdict (on_ct_validation stderr_bio ctx (stack_of []) arg) = Some Reject
  /\ forall fuel : nat,
       on_ct_validation_fuel fuel stderr_bio ctx (stack_of []) arg
       = Returned Reject [fprintf stderr msg_no_scts []].
Proof. split; [reflexivity|intro fuel; reflexivity]. Qed.

Lemma classification_line_cases (sct : SCT) :
  (SCT_get_source sct = SCT_SOURCE_X509V3_EXTENSION /\
   classification_line sct = fprintf stderr msg_x509v3 []) \/
  (SCT_get_source sct = SCT_SOURCE_OCSP_STAPLED_RESPONSE /\
   classification_line sct = fprintf stderr msg_ocsp []) \/
  (SCT_get_source sct = SCT_SOURCE_TLS_EXTENSION /\
   classification_line sct = fprintf stderr msg_tls []) \/
  (unknown_source sct /\
   classification_line sct = fprintf stderr msg_unknown []).
Proof.
  unfold classification_line, switch_source, unknown_source.
  destruct (Z.eqb_spec (SCT_get_source sct) SCT_SOURCE_X509V3_EXTENSION);
    [now left|].
  destruct (Z.eqb_spec (SCT_get_source sct) SCT_SOURCE_OCSP_STAPLED_RESPONSE);
    [now right; left|].
  destruct (Z.eqb_spec (SCT_get_source sct) SCT_SOURCE_TLS_EXTENSION);
    [now right; right; left|].
  right; right; right. cbn [snd]. tauto.
Qed.

Lemma in_sct_record (stderr_bio : option BIO) (scts : list SCT) (sct : SCT)
    (e : event) :
  In sct scts -> In e (sct_record stderr_bio sct) ->
  In e (flat_map (sct_record stderr_bio) scts).
Proof. intros Hin He. apply in_flat_map. now exists sct. Qed.

(** C4, as the code has it: for every collection, the diagnostics are the
    header, then for each SCT in order its dump (when the BIO on [stderr]
    exists) and its classification line, then a closing that depends on the
    verdict.  On Accept the closing is the summary line with the number of
    SCTs and of CA-signed SCTs, and the line saying that signatures have not
    been validated; on Reject it is one line that states the rejection. *)
Theorem diagnostics_by_verdict (stderr_bio : option BIO)
    (ctx : CT_POLICY_EVAL_CTX) (scts : list SCT) (arg : void_ptr) :
  let r := on_ct_validation stderr_bio ctx (stack_of scts) arg in
  ((scts = [] /\ r = Returned Reject [fprintf stderr msg_no_scts []]) \/
   (scts <> [] /\
    exists closing : list event,
      diagnostics r
      = fprintf stderr msg_header []
        :: flat_map (sct_record stderr_bio) scts ++ closing
      /\ ((verdict r = Some Accept /\
           closing
           = [fprintf stderr msg_summary
                [Z.of_nat (List.length scts); count_signed scts];
              fprintf stderr msg_not_validated []]) \/
          (verdict r = Some Reject /\
           closing = [fprintf stderr msg_no_signed []]))))
  /\ (forall sct, In sct scts ->
        In (classification_line sct) (diagnostics r)
        /\ forall bio, stderr_bio = Some bio ->
             In (SCT_print sct bio 2) (diagnostics r)).
Proof.
  cbv zeta. rewrite on_ct_validation_collection. split.
  - destruct scts as [|sct0 scts]; [left; split; reflexivity|].
    right. split; [discriminate|].
    unfold collection_result.
    destruct (count_signed (sct0 :: scts) <=? 0);
      cbn [diagnostics verdict]; eexists; (split; [reflexivity|]);
      [right|left]; split; reflexivity.
  - intros sct Hin.
    assert (Hrec : forall e, In e (sct_record stderr_bio sct) ->
                     In e (diagnostics (collection_result stderr_bio scts))).
    { intros e He. destruct scts as [|sct0 scts]; [contradiction|].
      unfold collection_result.
      destruct (count_signed (sct0 :: scts) <=? 0); cbn [diagnostics];
        right; apply in_or_app; left;
        apply (in_sct_record stderr_bio (sct0 :: scts) sct e Hin He). }
    split.
    + apply Hrec. unfold sct_record. apply in_or_app. right. now left.
    + intros bio ->. apply Hrec. unfold sct_record, print_sct. now left.
Qed.

(** C4, where the sentence of the specification fails: a rejected
    collection gets neither a line with the counts nor the line about
    signatures, and without the BIO no SCT is dumped. *)
Lemma reject_diagnostics_lack_summary :
  (verdict (on_ct_validation bio_stderr 0 (stack_of [sct_tls]) None)
   = Some Reject
   /\ ~ In (fprintf stderr msg_not_validated [])
          (diagnostics (on_ct_validation bio_stderr 0 (stack_of [sct_tls]) None))
   /\ Forall (fun e => event_args e = [])
          (diagnostics (on_ct_validation bio_stderr 0 (stack_of [sct_tls]) None)))
  /\ (verdict (on_ct_validation None 0 (stack_of [sct_x509v3]) None)
      = Some Accept
      /\ Forall (fun e => exists stream format args,
                            e = fprintf stream format args)
            (diagnostics
               (on_ct_validation None 0 (stack_of [sct_x509v3]) None))).
Proof.
  split; [split; [reflexivity|split]|split; [reflexivity|]].
  - rewrite scenario_B. cbn [diagnostics].
    intros [H|[H|[H|[H|[H|[]]]]]]; vm_compute in H; discriminate H.
  - rewrite scenario_B. cbn [diagnostics].
    repeat constructor.
  - rewrite on_ct_validation_collection. cbn.
    repeat (constructor; [do 3 eexists; reflexivity|]). constructor.
Qed.

(** C5: two collections of the same length with the same source at every
    position get the same verdict, whatever their payloads; nor do the BIO,
    the evaluation context or the callback argument change it. *)
Theorem verdict_depends_on_sources_only (stderr_bio stderr_bio' : option BIO)
    (ctx ctx' : CT_POLICY_EVAL_CTX) (scts scts' : list SCT)
    (arg arg' : void_ptr) :
  map SCT_get_source scts = map SCT_get_source scts' ->
  verdict (on_ct_validation stderr_bio ctx (stack_of scts) arg)
  = verdict (on_ct_validation stderr_bio' ctx' (stack_of scts') arg').
Proof.
  intro Hsrc. rewrite !verdict_collection.
  now rewrite (count_signed_sources scts scts' Hsrc).
Qed.

Lemma verdict_depends_on_sources_only_witness :
  verdict (on_ct_validation bio_stderr 0 (stack_of [sct_tls; sct_x509v3]) None)
  = verdict (on_ct_validation None 7 (stack_of [sct_tls'; sct_x509v3'])
               (Some 16)).
Proof.
  apply (verdict_depends_on_sources_only bio_stderr None 0 7
           [sct_tls; sct_x509v3] [sct_tls'; sct_x509v3'] None (Some 16)).
  reflexivity.
Defined.

(** C6: reordering a collection does not change the verdict. *)
Theorem verdict_permutation_invariant (stderr_bio : option BIO)
    (ctx : CT_POLICY_EVAL_CTX) (scts scts' : list SCT) (arg : void_ptr) :
  Permutation scts scts' ->
  verdict (on_ct_validation stderr_bio ctx (stack_of scts) arg)
  = verdict (on_ct_validation stderr_bio ctx (stack_of scts') arg).
Proof.
  intro Hperm. rewrite !verdict_collection.
  now rewrite (count_signed_Permutation scts scts' Hperm).
Qed.

Lemma verdict_permutation_invariant_witness :
  verdict (on_ct_validation bio_stderr 0
             (stack_of [sct_tls; sct_ocsp; sct_unknown]) None)
  = verdict (on_ct_validation bio_stderr 0
               (stack_of [sct_unknown; sct_tls; sct_ocsp]) None).
Proof.
  apply (verdict_permutation_invariant bio_stderr 0
           [sct_tls; sct_ocsp; sct_unknown] [sct_unknown; sct_tls; sct_ocsp]
           None).
  apply Permutation_sym.
  apply (Permutation_cons_append [sct_tls; sct_ocsp] sct_unknown).
Defined.

(** The callback on a stack with every element present, for the loop's own
    fuel and for any larger one: it returns 0 or 1. *)
Lemma on_ct_validation_all_present (stderr_bio : option BIO)
    (ctx : CT_POLICY_EVAL_CTX) (scts : option STACK_OF_SCT) (arg : void_ptr) :
  all_present scts ->
  exists (rc : Z) (out : list event),
    (rc = Accept \/ rc = Reject)
    /\ (sk_SCT_num scts <= 0 -> rc = Reject)
    /\ on_ct_validation stderr_bio ctx scts arg = Returned rc out
    /\ forall fuel : nat,
         (loop_fuel scts <= fuel)%nat ->
         on_ct_validation_fuel fuel stderr_bio ctx scts arg = Returned rc out.
Proof.
  intro Hall.
  assert (Hret : exists rc out,
             (rc = Accept \/ rc = Reject)
             /\ (sk_SCT_num scts <= 0 -> rc = Reject)
             /\ on_ct_validation stderr_bio ctx scts arg = Returned rc out).
  { destruct scts as [elts|].
    - destruct (all_present_collection elts Hall) as [l ->].
      rewrite on_ct_validation_collection.
      destruct l as [|sct l].
      { exists Reject. eexists.
        split; [now right|split; [reflexivity|reflexivity]]. }
      unfold collection_result.
      assert (Hnum : ~ sk_SCT_num (stack_of (sct :: l)) <= 0)
        by (unfold stack_of; cbn [sk_SCT_num List.length map]; lia).
      destruct (count_signed (sct :: l) <=? 0); eexists; eexists;
        (split; [|split; [|reflexivity]]);
        [now right|reflexivity|now left|intro; contradiction].
    - exists Reject. eexists.
      split; [now right|split; [reflexivity|reflexivity]]. }
  destruct Hret as (rc & out & Hrc & Hzero & Hret).
  exists rc, out. repeat split; try assumption.
  intros fuel Hfuel. now rewrite on_ct_validation_fuel_enough.
Qed.

(** C7, as the code has it: when the collection is absent ([NULL]) or every
    one of its elements is present, the callback returns exactly one of
    Accept and Reject, and Reject when the collection is absent or empty. *)
Theorem verdict_total_when_present (stderr_bio : option BIO)
    (ctx : CT_POLICY_EVAL_CTX) (scts : option STACK_OF_SCT) (arg : void_ptr) :
  all_present scts ->
  (verdict (on_ct_validation stderr_bio ctx scts arg) = Some Accept \/
   verdict (on_ct_validation stderr_bio ctx scts arg) = Some Reject)
  /\ (sk_SCT_num scts <= 0 ->
      verdict (on_ct_validation stderr_bio ctx scts arg) = Some Reject).
Proof.
  intro Hall.
  destruct (on_ct_validation_all_present stderr_bio ctx scts arg Hall)
    as (rc & out & Hrc & Hzero & -> & _).
  cbn [verdict]. split.
  - destruct Hrc as [->| ->]; auto.
  - intro Hnum. now rewrite (Hzero Hnum).
Qed.

Lemma verdict_total_when_present_witness :
  verdict (on_ct_validation bio_stderr 0 None None) = Some Reject.
Proof.
  apply (verdict_total_when_present bio_stderr 0 None None).
  - intros i Hi. cbn in Hi. lia.
  - cbn. lia.
Defined.

(** C7, where the sentence of the specification fails: on a stack with a
    [NULL] element the assertion of the loop fails, and the callback returns
    no verdict, whatever fuel the loop is given. *)
Lemma null_element_gives_no_verdict :
  on_ct_validation bio_stderr 0 (Some [Some sct_x509v3; None]) None
  = AssertionFailed
      [fprintf stderr msg_header [];
       SCT_print sct_x509v3 (BIO_fp stderr) 2; fprintf stderr nl [];
       fprintf stderr msg_x509v3 []]
  /\ verdict (on_ct_validation bio_stderr 0 (Some [Some sct_x509v3; None]) None)
     = None
  /\ on_ct_validation_fuel 1000 bio_stderr 0 (Some [Some sct_x509v3; None]) None
     = on_ct_validation bio_stderr 0 (Some [Some sct_x509v3; None]) None.
Proof. repeat split. Qed.

(** C8: registration enables CT validation in strict mode, then installs
    [on_ct_validation] with a [NULL] argument.  It returns 1 exactly when
    both calls succeed and 0 as soon as one fails; after a failed first call
    the second is not made. *)
Theorem configure_ct_lite_enforcement_both_steps (SSL_CTX : Type)
    (SSL_CTX_enable_ct : SSL_CTX -> Z -> Z * SSL_CTX)
    (SSL_CTX_set_ct_validation_callback :
       SSL_CTX -> ssl_ct_validation_cb -> void_ptr -> Z * SSL_CTX)
    (ctx : SSL_CTX) :
  let step1 := SSL_CTX_enable_ct ctx SSL_CT_VALIDATION_STRICT in
  let step2 :=
    SSL_CTX_set_ct_validation_callback (snd step1) on_ct_validation None in
  let r :=
    configure_ct_lite_enforcement SSL_CTX SSL_CTX_enable_ct
      SSL_CTX_set_ct_validation_callback ctx in
  (fst r = 1 \/ fst r = 0)
  /\ (fst r = 1 <-> fst step1 <> 0 /\ fst step2 <> 0)
  /\ (fst r = 0 <-> fst step1 = 0 \/ fst step2 = 0)
  /\ (fst step1 <> 0 -> snd r = snd step2)
  /\ (fst step1 = 0 -> snd r = snd step1).
Proof.
  cbv zeta. unfold configure_ct_lite_enforcement.
  destruct (SSL_CTX_enable_ct ctx SSL_CT_VALIDATION_STRICT)
    as [enabled ctx1].
  cbn [fst snd].
  destruct (Z.eqb_spec enabled 0) as [->|Henabled].
  - cbn [fst snd]. repeat split; auto; try lia; try tauto.
  - destruct (SSL_CTX_set_ct_validation_callback ctx1 on_ct_validation None)
      as [installed ctx2].
    cbn [fst snd].
    destruct (Z.eqb_spec installed 0) as [->|Hinstalled]; cbn [fst snd];
      repeat split; auto; try lia; try tauto.
Qed.

Example configure_toy_ok :
  ToyTLS.configure (ToyTLS.mkCtx false None [])
  = (1, ToyTLS.mkCtx false (Some (on_ct_validation, None))
          ["enable_ct"%string; "set_ct_validation_callback"%string]).
Proof. reflexivity. Qed.

Example configure_toy_fails :
  ToyTLS.configure (ToyTLS.mkCtx true None [])
  = (0, ToyTLS.mkCtx true None []).
Proof. reflexivity. Qed.

(** C9: appending an SCT of any source to an accepted collection leaves it
    accepted. *)
Theorem accept_monotone_append (stderr_bio : option BIO)
    (ctx : CT_POLICY_EVAL_CTX) (scts : list SCT) (arg : void_ptr)
    (extra : SCT) :
  verdict (on_ct_validation stderr_bio ctx (stack_of scts) arg) = Some Accept ->
  verdict (on_ct_validation stderr_bio ctx (stack_of (scts ++ [extra])) arg)
  = Some Accept.
Proof.
  rewrite !verdict_collection, count_signed_app.
  pose proof (count_signed_nonneg [extra]) as Hextra.
  destruct (Z.leb_spec (count_signed scts) 0) as [Hle|Hgt];
    [intro H; discriminate H|intros _].
  replace (count_signed scts + count_signed [extra] <=? 0) with false
    by (symmetry; apply Z.leb_gt; lia).
  reflexivity.
Qed.

Lemma accept_monotone_append_witness :
  verdict (on_ct_validation bio_stderr 0
             (stack_of ([sct_unknown; sct_x509v3] ++ [sct_tls])) None)
  = Some Accept.
Proof.
  apply (accept_monotone_append bio_stderr 0 [sct_unknown; sct_x509v3] None
           sct_tls).
  reflexivity.
Defined.

(** C10: on a non-empty stack whose every index below [num_sct] holds an
    SCT, the assertion of the loop never fails and the evaluation ends: with
    the fuel of the loop, and with any larger one, the callback returns a
    verdict, Accept or Reject. *)
Theorem assertion_holds_when_present (stderr_bio : option BIO)
    (ctx : CT_POLICY_EVAL_CTX) (scts : option STACK_OF_SCT) (arg : void_ptr) :
  0 < sk_SCT_num scts ->
  all_present scts ->
  exists (rc : Z) (out : list event),
    (rc = Accept \/ rc = Reject)
    /\ on_ct_validation stderr_bio ctx scts arg = Returned rc out
    /\ (forall fuel : nat,
          (loop_fuel scts <= fuel)%nat ->
          on_ct_validation_fuel fuel stderr_bio ctx scts arg = Returned rc out)
    /\ (forall out' : list event,
          on_ct_validation stderr_bio ctx scts arg <> AssertionFailed out').
Proof.
  intros _ Hall.
  destruct (on_ct_validation_all_present stderr_bio ctx scts arg Hall)
    as (rc & out & Hrc & _ & Hret & Hfuel).
  exists rc, out. repeat split; try assumption.
  intros out' Hfail. rewrite Hret in Hfail. discriminate Hfail.
Qed.

Lemma assertion_holds_when_present_witness :
  exists (rc : Z) (out : list event),
    (rc = Accept \/ rc = Reject)
    /\ on_ct_validation bio_stderr 0 (Some [Some sct_tls; Some sct_ocsp]) None
       = Returned rc out
    /\ (forall fuel : nat,
          (loop_fuel (Some [Some sct_tls; Some sct_ocsp]) <= fuel)%nat ->
          on_ct_validation_fuel fuel bio_stderr 0
            (Some [Some sct_tls; Some sct_ocsp]) None
          = Returned rc out)
    /\ (forall out' : list event,
          on_ct_validation bio_stderr 0 (Some [Some sct_tls; Some sct_ocsp])
            None
          <> AssertionFailed out').
Proof.
  apply (assertion_holds_when_present bio_stderr 0
           (Some [Some sct_tls; Some sct_ocsp]) None).
  - cbn. lia.
  - intros i Hi. cbn in Hi.
    assert (Hcases : i = 0 \/ i = 1) by lia.
    destruct Hcases as [->| ->]; cbn; discriminate.
Defined.

(** ** Properties of [main] *)

Section MainProperties.

Variables SSL_CTX CONN : Type.
Variable lib : tls_library SSL_CTX CONN.

(** Registration succeeds exactly when both CT steps do. *)
Lemma configure_enforces (ctx : SSL_CTX) :
  fst (configure_on lib ctx) <> 0
  <-> ct_enforced lib ctx (snd (configure_on lib ctx)).
Proof.
  unfold configure_on, ct_enforced, configure_ct_lite_enforcement.
  destruct (SSL_CTX_enable_ct lib ctx SSL_CT_VALIDATION_STRICT)
    as [enabled ctx1].
  cbn [fst snd].
  destruct (Z.eqb_spec enabled 0) as [->|Henabled]; cbn [fst snd].
  - split; [intro H; now contradiction H|intros [H _]; now contradiction H].
  - destruct (SSL_CTX_set_ct_validation_callback lib ctx1 on_ct_validation None)
      as [installed ctx2].
    cbn [fst snd].
    destruct (Z.eqb_spec installed 0) as [->|Hinstalled]; cbn [fst snd].
    + split; [intro H; now contradiction H
             |intros (_ & H & _); now contradiction H].
    + split; [intros _; repeat split; assumption|intros _; discriminate].
Qed.

Lemma nth_error_1_length (argv : list string) (hostname : string) :
  nth_error argv 1 = Some hostname ->
  (Z.of_nat (List.length argv) <? 2) = false /\ nth 1 argv EmptyString = hostname.
Proof.
  destruct argv as [|program [|arg argv]]; cbn [nth_error]; try discriminate.
  intros [= ->]. split; [apply Z.ltb_ge; cbn [List.length]; lia|reflexivity].
Qed.

(** With everything in place [main] connects. *)
Lemma established_main (argv : list string) (enforcing : SSL_CTX)
    (final : CONN) :
  established lib argv enforcing final ->
  main lib argv
  = main_err 0 [Print (fprintf stderr msg_connected [])]
      (Some final) (Some enforcing).
Proof.
  intros (hostname & ctx & bio & Harg & Hprep & Hct & Hbio & Hconn).
  destruct Hprep as (fresh & paths & proto & with_paths
                     & Hnew & Hpaths & Hpaths0 & Hproto & Hproto0).
  destruct Hconn as (named & host & handshake & with_name & checked & bare
                     & Hssl & Hname & Hname0 & Hbare & Hhost & Hhost0
                     & Hhs & Hhs0).
  destruct (nth_error_1_length argv hostname Harg) as [Hargc Hnth].
  pose proof (proj2 (configure_enforces ctx)) as Hconf.
  assert (Henf : enforcing = snd (configure_on lib ctx)).
  { destruct Hct as (H1 & H2 & ->).
    unfold configure_on, configure_ct_lite_enforcement.
    destruct (SSL_CTX_enable_ct lib ctx SSL_CT_VALIDATION_STRICT)
      as [enabled ctx1]. cbn [fst snd] in *.
    destruct (Z.eqb_spec enabled 0); [contradiction|].
    destruct (SSL_CTX_set_ct_validation_callback lib ctx1 on_ct_validation
                None) as [installed ctx2]. cbn [fst snd] in *.
    destruct (Z.eqb_spec installed 0); [contradiction|reflexivity]. }
  subst enforcing. specialize (Hconf Hct).
  unfold main. rewrite Hargc, Hnth, Hnew, Hpaths.
  apply Z.eqb_neq in Hpaths0, Hproto0, Hconf, Hssl, Hname0, Hhost0.
  rewrite Hpaths0, Hproto, Hproto0.
  fold (configure_on lib ctx).
  destruct (configure_on lib ctx) as [configured ctx'].
  cbn [fst snd] in *.
  rewrite Hconf, Hbio, Hssl, Hname, Hname0, Hbare, Hhost, Hhost0, Hhs.
  replace (handshake <=? 0) with false by (symmetry; apply Z.leb_gt; lia).
  reflexivity.
Qed.

(** How [main] ends: the usage error, a failure after it, or a
    connection. *)
Lemma main_outcome (argv : list string) :
  ((List.length argv < 2)%nat
   /\ main lib argv
      = main_err 1 [PrintUsage stderr msg_usage (nth_error argv 0)] None None)
  \/ ((2 <= List.length argv)%nat
      /\ exists (bio : option CONN) (ctx : option SSL_CTX),
           main lib argv = main_err 1 [] bio ctx
           /\ (bio <> None ->
               exists enforcing : SSL_CTX,
                 ctx = Some enforcing /\ ct_connection lib enforcing))
  \/ (exists (enforcing : SSL_CTX) (final : CONN),
        established lib argv enforcing final
        /\ main lib argv
           = main_err 0 [Print (fprintf stderr msg_connected [])]
               (Some final) (Some enforcing)).
Proof.
  unfold main.
  destruct (Z.ltb_spec (Z.of_nat (List.length argv)) 2) as [Hargc|Hargc].
  { left. split; [lia|reflexivity]. }
  right.
  assert (Hlen : (2 <= List.length argv)%nat) by lia.
  assert (Harg : nth_error argv 1 = Some (nth 1 argv EmptyString)).
  { destruct argv as [|program [|arg argv]]; cbn [List.length] in Hlen;
      try lia. reflexivity. }
  destruct (SSL_CTX_new lib) as [fresh|] eqn:Hnew;
    [|left; split; [exact Hlen|exists None, None;
        split; [reflexivity|intro H; now contradiction H]]].
  destruct (SSL_CTX_set_default_verify_paths lib
              (SSL_CTX_set_verify lib fresh SSL_VERIFY_PEER))
    as [paths with_paths] eqn:Hpaths.
  destruct (Z.eqb_spec paths 0) as [Hpaths0|Hpaths0];
    [left; split; [exact Hlen|eexists None, (Some _);
       split; [reflexivity|intro H; now contradiction H]]|].
  destruct (SSL_CTX_set_min_proto_version lib with_paths TLS1_2_VERSION)
    as [proto ctx] eqn:Hproto.
  destruct (Z.eqb_spec proto 0) as [Hproto0|Hproto0];
    [left; split; [exact Hlen|eexists None, (Some _);
       split; [reflexivity|intro H; now contradiction H]]|].
  fold (configure_on lib ctx).
  pose proof (proj1 (configure_enforces ctx)) as Hct.
  destruct (configure_on lib ctx) as [configured enforcing].
  cbn [fst snd] in Hct.
  destruct (Z.eqb_spec configured 0) as [Hconf|Hconf];
    [left; split; [exact Hlen|eexists None, (Some _);
       split; [reflexivity|intro H; now contradiction H]]|].
  specialize (Hct Hconf).
  destruct (BIO_new_ssl_connect lib enforcing) as [bio|] eqn:Hbio;
    [|left; split; [exact Hlen|eexists None, (Some _);
        split; [reflexivity|intro H; now contradiction H]]].
  assert (Hprep : prepared_context lib ctx).
  { exists fresh, paths, proto, with_paths. repeat split; assumption. }
  assert (Hmade : ct_connection lib enforcing).
  { exists ctx, bio. repeat split; try assumption; apply Hct. }
  destruct (Z.eqb_spec (BIO_get_ssl lib bio) 0) as [Hssl|Hssl];
    [left; split; [exact Hlen|eexists (Some _), (Some _);
       split; [reflexivity|intros _; now exists enforcing]]|].
  destruct (BIO_set_conn_hostname lib bio (nth 1 argv EmptyString))
    as [named with_name] eqn:Hname.
  destruct (Z.eqb_spec named 0) as [Hname0|Hname0];
    [left; split; [exact Hlen|eexists (Some _), (Some _);
       split; [reflexivity|intros _; now exists enforcing]]|].
  destruct (BIO_get_conn_hostname lib with_name) as [bare|] eqn:Hbare;
    [|left; split; [exact Hlen|eexists (Some _), (Some _);
        split; [reflexivity|intros _; now exists enforcing]]].
  destruct (SSL_set1_host lib with_name bare) as [host checked] eqn:Hhost.
  destruct (Z.eqb_spec host 0) as [Hhost0|Hhost0];
    [left; split; [exact Hlen|eexists (Some _), (Some _);
       split; [reflexivity|intros _; now exists enforcing]]|].
  destruct (BIO_do_handshake lib checked) as [handshake final] eqn:Hhs.
  destruct (Z.leb_spec handshake 0) as [Hhs0|Hhs0];
    [left; split; [exact Hlen|eexists (Some _), (Some _);
       split; [reflexivity|intros _; now exists enforcing]]|].
  right. exists enforcing, final. split; [|reflexivity].
  exists (nth 1 argv EmptyString), ctx, bio.
  split; [exact Harg|]. split; [exact Hprep|].
  split; [exact Hct|]. split; [exact Hbio|].
  exists named, host, handshake, with_name, checked, bare.
  repeat split; assumption.
Qed.

(** X1: [main] exits with 0 or 1; it prints the line of success exactly
    when it exits with 0, and dumps the error queue exactly when it exits
    with 1, the usage error included. *)
Theorem main_exit_code_tells_outcome (argv : list string) :
  (fst (main lib argv) = 0 \/ fst (main lib argv) = 1)
  /\ (fst (main lib argv) = 0
      <-> In (Print (fprintf stderr msg_connected [])) (snd (main lib argv)))
  /\ (fst (main lib argv) = 1
      <-> In (ERR_print_errors_fp stderr) (snd (main lib argv))).
Proof.
  destruct (main_outcome argv)
    as [[_ ->]|[(_ & bio & ctx & -> & _)|(enforcing & final & _ & ->)]];
    cbn [main_err fst snd Z.eqb app In].
  - split; [now right|]. split; split; intro H; try discriminate H; auto.
    destruct H as [H|[H|[H|[H|[]]]]]; discriminate H.
  - split; [now right|]. split; split; intro H; try discriminate H; auto.
    destruct H as [H|[H|[H|[]]]]; discriminate H.
  - split; [now left|]. split; split; intro H; try discriminate H; auto.
    destruct H as [H|[H|[H|[]]]]; discriminate H.
Qed.

(** X2: on every path [main] releases the connection BIO and then the
    context, each once and as its last two actions; a BIO is released only
    together with the context it was made from. *)
Theorem main_releases_once (argv : list string) :
  exists (before : list (main_event SSL_CTX CONN)) (bio : option CONN)
         (ctx : option SSL_CTX),
    snd (main lib argv) = before ++ [BIO_free_all bio; SSL_CTX_free ctx]
    /\ forallb (fun e => negb (is_release e)) before = true
    /\ (bio <> None -> ctx <> None).
Proof.
  destruct (main_outcome argv)
    as [[_ ->]|[(_ & bio & ctx & -> & Hbio)|(enforcing & final & _ & ->)]];
    cbn [main_err fst snd Z.eqb app].
  - exists [PrintUsage stderr msg_usage (nth_error argv 0);
            ERR_print_errors_fp stderr], None, None.
    repeat split. intro H; now contradiction H.
  - exists [ERR_print_errors_fp stderr], bio, ctx.
    repeat split. intro H. destruct (Hbio H) as (enforcing & -> & _).
    discriminate.
  - exists [Print (fprintf stderr msg_connected [])],
      (Some final), (Some enforcing).
    repeat split. discriminate.
Qed.

(** X3: with fewer than two arguments [main] prints the usage line with
    [argv[0]], dumps the error queue and exits with 1; no context and no
    connection exist, whatever the library would have answered. *)
Theorem main_usage (argv : list string) :
  (List.length argv < 2)%nat ->
  main lib argv
  = (1, [PrintUsage stderr msg_usage (nth_error argv 0);
         ERR_print_errors_fp stderr;
         BIO_free_all None; SSL_CTX_free None]).
Proof.
  intro Hargc. unfold main.
  replace (Z.of_nat (List.length argv) <? 2) with true
    by (symmetry; apply Z.ltb_lt; lia).
  reflexivity.
Qed.

(** X4: [main] exits with 0 exactly when there is a second argument and
    every step succeeds in turn: a new context, the default trust store,
    the TLS 1.2 floor, both CT steps, the connection BIO and its SSL, the
    peer name, the host name to verify, and a handshake with a positive
    result.  It then prints the line of success and releases the BIO and
    the context of that connection. *)
Theorem main_success_iff (argv : list string) :
  (fst (main lib argv) = 0
   <-> exists (enforcing : SSL_CTX) (final : CONN),
         established lib argv enforcing final)
  /\ (forall (enforcing : SSL_CTX) (final : CONN),
        established lib argv enforcing final ->
        main lib argv
        = (0, [Print (fprintf stderr msg_connected []);
               BIO_free_all (Some final); SSL_CTX_free (Some enforcing)])).
Proof.
  split.
  - split.
    + destruct (main_outcome argv)
        as [[_ ->]|[(_ & bio & ctx & -> & _)|(enforcing & final & H & _)]];
        cbn [main_err fst]; try discriminate.
      intros _. now exists enforcing, final.
    + intros (enforcing & final & H).
      now rewrite (established_main argv enforcing final H).
  - intros enforcing final H.
    now rewrite (established_main argv enforcing final H).
Qed.


(** X6: when one of the two CT steps fails on the context [main]
    prepared, [main] dumps the error queue, releases the context and exits
    with 1 without making a connection BIO. *)
Theorem main_ct_failure_is_fatal (argv : list string) (ctx : SSL_CTX) :
  (2 <= List.length argv)%nat ->
  prepared_context lib ctx ->
  fst (configure_on lib ctx) = 0 ->
  main lib argv
  = (1, [ERR_print_errors_fp stderr; BIO_free_all None;
         SSL_CTX_free (Some (snd (configure_on lib ctx)))]).
Proof.
  intros Hargc (fresh & paths & proto & with_paths
                & Hnew & Hpaths & Hpaths0 & Hproto & Hproto0) Hconf.
  unfold main.
  replace (Z.of_nat (List.length argv) <? 2) with false
    by (symmetry; apply Z.ltb_ge; lia).
  apply Z.eqb_neq in Hpaths0, Hproto0.
  rewrite Hnew, Hpaths, Hpaths0, Hproto, Hproto0.
  fold (configure_on lib ctx).
  destruct (configure_on lib ctx) as [configured ctx'].
  cbn [fst snd] in *. subst configured. reflexivity.
Qed.

End MainProperties.

Example toy_client_connects :
  main (ToyClient.library (Some ToyClient.fresh_ctx)) ToyClient.argv_good
  = (0, [Print (fprintf stderr msg_connected []);
         BIO_free_all
           (Some (ToyClient.mkConn (ToyClient.enforcing ToyClient.fresh_ctx)
                    (Some "ct.example:443"%string)
                    (Some "ct.example"%string) true));
         SSL_CTX_free (Some (ToyClient.enforcing ToyClient.fresh_ctx))]).
Proof. reflexivity. Qed.

Example toy_client_handshake_fails :
  main (ToyClient.library (Some ToyClient.fresh_ctx)) ToyClient.argv_other
  = (1, [ERR_print_errors_fp stderr;
         BIO_free_all
           (Some (ToyClient.mkConn (ToyClient.enforcing ToyClient.fresh_ctx)
                    (Some "other.example:443"%string)
                    (Some "other.example"%string) false));
         SSL_CTX_free (Some (ToyClient.enforcing ToyClient.fresh_ctx))]).
Proof. reflexivity. Qed.

Lemma main_usage_witness :
  main (ToyClient.library (Some ToyClient.fresh_ctx)) ["client"%string]
  = (1, [PrintUsage stderr msg_usage (Some "client"%string);
         ERR_print_errors_fp stderr;
         BIO_free_all None; SSL_CTX_free None]).
Proof.
  apply (main_usage ToyTLS.SSL_CTX ToyClient.CONN
           (ToyClient.library (Some ToyClient.fresh_ctx)) ["client"%string]).
  simpl. lia.
Defined.


Lemma main_ct_failure_is_fatal_witness :
  main (ToyClient.library (Some ToyClient.clashing_ctx)) ToyClient.argv_good
  = (1, [ERR_print_errors_fp stderr; BIO_free_all None;
         SSL_CTX_free
           (Some (snd (configure_on
                         (ToyClient.library (Some ToyClient.clashing_ctx))
                         (ToyClient.prepared ToyClient.clashing_ctx))))]).
Proof.
  apply (main_ct_failure_is_fatal ToyTLS.SSL_CTX ToyClient.CONN
           (ToyClient.library (Some ToyClient.clashing_ctx))
           ToyClient.argv_good (ToyClient.prepared ToyClient.clashing_ctx)).
  - simpl. lia.
  - exists ToyClient.clashing_ctx, 1, 1,
      (ToyClient.note "set_default_verify_paths"
         (ToyClient.note "set_verify" ToyClient.clashing_ctx)).
    repeat split; discriminate.
  - reflexivity.
Defined.

(** ** Further properties of the policy *)

Lemma ca_attestedb_false_iff (sct : SCT) :
  ca_attestedb sct = false <-> not_ca_attested sct.
Proof.
  split; [|apply not_ca_attested_false].
  unfold ca_attestedb, not_ca_attested, unknown_source.
  rewrite orb_false_iff, !Z.eqb_neq. intros [Hx Ho].
  destruct (Z.eq_dec (SCT_get_source sct) SCT_SOURCE_TLS_EXTENSION);
    [now left|right; repeat split; assumption].
Qed.

Lemma count_signed_pos_iff (scts : list SCT) :
  0 < count_signed scts <-> exists sct, In sct scts /\ ca_attested sct.
Proof.
  split.
  - unfold count_signed.
    destruct (filter ca_attestedb scts) as [|sct kept] eqn:Hkept;
      [cbn; lia|intros _].
    assert (Hin : In sct (filter ca_attestedb scts))
      by (rewrite Hkept; now left).
    apply filter_In in Hin. destruct Hin as [Hin Hca].
    exists sct. split; [exact Hin|now apply ca_attestedb_iff].
  - intros (sct & Hin & Hca). exact (count_signed_pos sct scts Hin Hca).
Qed.

Lemma verdict_accept_iff_count (stderr_bio : option BIO)
    (ctx : CT_POLICY_EVAL_CTX) (scts : list SCT) (arg : void_ptr) :
  verdict (on_ct_validation stderr_bio ctx (stack_of scts) arg) = Some Accept
  <-> 0 < count_signed scts.
Proof.
  rewrite verdict_collection.
  destruct (Z.leb_spec (count_signed scts) 0) as [Hle|Hgt]; split; intro H;
    try reflexivity; try discriminate H; try lia.
Qed.

(** X7: a collection is accepted exactly when it holds an SCT delivered
    through the certificate or a stapled OCSP response, and rejected exactly
    when every SCT in it comes from the TLS extension or an unknown
    source. *)
Theorem accept_iff_ca_attested (stderr_bio : option BIO)
    (ctx : CT_POLICY_EVAL_CTX) (scts : list SCT) (arg : void_ptr) :
  (verdict (on_ct_validation stderr_bio ctx (stack_of scts) arg) = Some Accept
   <-> exists sct, In sct scts /\ ca_attested sct)
  /\ (verdict (on_ct_validation stderr_bio ctx (stack_of scts) arg)
      = Some Reject
      <-> forall sct, In sct scts -> not_ca_attested sct).
Proof.
  split.
  - rewrite verdict_accept_iff_count. apply count_signed_pos_iff.
  - rewrite verdict_collection. split.
    + intros Hrej sct Hin. apply ca_attestedb_false_iff.
      destruct (ca_attestedb sct) eqn:Hca; [|reflexivity].
      apply ca_attestedb_iff in Hca.
      pose proof (count_signed_pos sct scts Hin Hca) as Hpos.
      replace (count_signed scts <=? 0) with false in Hrej
        by (symmetry; apply Z.leb_gt; exact Hpos).
      discriminate Hrej.
    + intro Hall. now rewrite (count_signed_zero scts Hall).
Qed.

(** X8: an SCT from the TLS extension or an unknown source has no part in
    the verdict: with or without it, at any position, the verdict is the
    same. *)
Theorem unattested_sct_is_ignored (stderr_bio : option BIO)
    (ctx : CT_POLICY_EVAL_CTX) (before after : list SCT) (sct : SCT)
    (arg : void_ptr) :
  not_ca_attested sct ->
  verdict (on_ct_validation stderr_bio ctx
             (stack_of (before ++ sct :: after)) arg)
  = verdict (on_ct_validation stderr_bio ctx (stack_of (before ++ after)) arg).
Proof.
  intro Hsct. rewrite !verdict_collection, !count_signed_app.
  rewrite count_signed_cons, (not_ca_attested_false sct Hsct).
  reflexivity.
Qed.

Lemma unattested_sct_is_ignored_witness :
  verdict (on_ct_validation bio_stderr 0
             (stack_of ([sct_ocsp] ++ sct_future :: [sct_tls])) None)
  = verdict (on_ct_validation bio_stderr 0
               (stack_of ([sct_ocsp] ++ [sct_tls])) None).
Proof.
  apply (unattested_sct_is_ignored bio_stderr 0 [sct_ocsp] [sct_tls]
           sct_future None).
  right. repeat split; discriminate.
Defined.

(** X9: pooling two collections: the concatenation is accepted exactly
    when one of the two is. *)
Theorem accept_concatenation (stderr_bio : option BIO)
    (ctx : CT_POLICY_EVAL_CTX) (scts scts' : list SCT) (arg : void_ptr) :
  verdict (on_ct_validation stderr_bio ctx (stack_of (scts ++ scts')) arg)
  = Some Accept
  <-> verdict (on_ct_validation stderr_bio ctx (stack_of scts) arg)
      = Some Accept
      \/ verdict (on_ct_validation stderr_bio ctx (stack_of scts') arg)
         = Some Accept.
Proof.
  rewrite !verdict_accept_iff_count, count_signed_app.
  pose proof (count_signed_nonneg scts).
  pose proof (count_signed_nonneg scts').
  lia.
Qed.

(** X10: an accepted collection stays accepted in every collection that
    holds all its SCTs, in any order and with any additions. *)
Theorem accept_monotone_inclusion (stderr_bio : option BIO)
    (ctx : CT_POLICY_EVAL_CTX) (scts scts' : list SCT) (arg : void_ptr) :
  incl scts scts' ->
  verdict (on_ct_validation stderr_bio ctx (stack_of scts) arg) = Some Accept ->
  verdict (on_ct_validation stderr_bio ctx (stack_of scts') arg) = Some Accept.
Proof.
  intro Hincl. rewrite !verdict_accept_iff_count, !count_signed_pos_iff.
  intros (sct & Hin & Hca). exists sct. split; [now apply Hincl|exact Hca].
Qed.

Lemma accept_monotone_inclusion_witness :
  verdict (on_ct_validation bio_stderr 0
             (stack_of [sct_tls; sct_x509v3; sct_unknown; sct_ocsp]) None)
  = Some Accept.
Proof.
  apply (accept_monotone_inclusion bio_stderr 0 [sct_ocsp; sct_tls]
           [sct_tls; sct_x509v3; sct_unknown; sct_ocsp] None).
  - intros sct [<-|[<-|[]]]; simpl; auto.
  - reflexivity.
Defined.

(** The element-wise loop over the SCTs in front of the rest of a stack. *)
Lemma classify_elements_app (stderr_bio : option BIO) (scts : list SCT)
    (rest : STACK_OF_SCT) :
  forall st : loop_state,
    classify_elements stderr_bio (map Some scts ++ rest) st
    = classify_elements stderr_bio rest
        (mkState (num_signed_sct st + count_signed scts)
           (written st ++ flat_map (sct_record stderr_bio) scts)).
Proof.
  induction scts as [|sct scts IH]; intro st; cbn [map app classify_elements].
  - f_equal. apply loop_state_eq; cbn.
    + unfold count_signed; cbn; lia.
    + now rewrite app_nil_r.
  - rewrite IH. f_equal. apply loop_state_eq; cbn [num_signed_sct written].
    + rewrite loop_body_num_signed, count_signed_cons. lia.
    + rewrite loop_body_written. cbn [flat_map]. now rewrite app_assoc.
Qed.

(** The callback on a stack whose first [NULL] element follows [scts]. *)
Lemma on_ct_validation_first_null (stderr_bio : option BIO)
    (ctx : CT_POLICY_EVAL_CTX) (scts : list SCT) (rest : STACK_OF_SCT)
    (arg : void_ptr) :
  on_ct_validation stderr_bio ctx (Some (map Some scts ++ None :: rest)) arg
  = AssertionFailed
      (fprintf stderr msg_header [] :: flat_map (sct_record stderr_bio) scts).
Proof.
  unfold on_ct_validation, loop_fuel. cbn [sk_SCT_num].
  rewrite Nat2Z.id, on_ct_validation_fuel_elements by lia.
  replace (Z.of_nat (List.length (map Some scts ++ None :: rest)) <=? 0)
    with false
    by (symmetry; apply Z.leb_gt; rewrite length_app; cbn [List.length]; lia).
  rewrite classify_elements_app. reflexivity.
Qed.

Lemma stack_first_null (elts : STACK_OF_SCT) :
  In None elts ->
  exists (scts : list SCT) (rest : STACK_OF_SCT),
    elts = map Some scts ++ None :: rest.
Proof.
  induction elts as [|[sct|] elts IH]; intro Hin.
  - contradiction.
  - destruct Hin as [Hin|Hin]; [discriminate Hin|].
    destruct (IH Hin) as (scts & rest & ->).
    now exists (sct :: scts), rest.
  - now exists [], elts.
Qed.

Lemma stack_null_or_collection (elts : STACK_OF_SCT) :
  In None elts \/ exists scts : list SCT, elts = map Some scts.
Proof.
  induction elts as [|[sct|] elts IH].
  - right. now exists [].
  - destruct IH as [Hin|[scts ->]]; [left; now right|right].
    now exists (sct :: scts).
  - left. now left.
Qed.

(** X11: on a stack with a [NULL] element the assertion fails at the first
    one, whatever comes after it and whatever was counted before it: the
    callback has written the header and the records of the SCTs in front,
    and returns no verdict.  More fuel does not change this. *)
Theorem null_element_fails_assertion (stderr_bio : option BIO)
    (ctx : CT_POLICY_EVAL_CTX) (scts : list SCT) (rest : STACK_OF_SCT)
    (arg : void_ptr) :
  on_ct_validation stderr_bio ctx (Some (map Some scts ++ None :: rest)) arg
  = AssertionFailed
      (fprintf stderr msg_header [] :: flat_map (sct_record stderr_bio) scts)
  /\ forall fuel : nat,
       (loop_fuel (Some (map Some scts ++ None :: rest)) <= fuel)%nat ->
       on_ct_validation_fuel fuel stderr_bio ctx
         (Some (map Some scts ++ None :: rest)) arg
       = AssertionFailed
           (fprintf stderr msg_header []
            :: flat_map (sct_record stderr_bio) scts).
Proof.
  split; [apply on_ct_validation_first_null|].
  intros fuel Hfuel. rewrite on_ct_validation_fuel_enough by exact Hfuel.
  apply on_ct_validation_first_null.
Qed.

(** X12: the callback returns no verdict exactly when its stack holds a
    [NULL] element. *)
Theorem no_verdict_iff_null_element (stderr_bio : option BIO)
    (ctx : CT_POLICY_EVAL_CTX) (elts : STACK_OF_SCT) (arg : void_ptr) :
  verdict (on_ct_validation stderr_bio ctx (Some elts) arg) = None
  <-> In None elts.
Proof.
  split.
  - intro Hnone.
    destruct (stack_null_or_collection elts) as [Hin|[scts ->]];
      [exact Hin|].
    change (Some (map Some scts)) with (stack_of scts) in Hnone.
    rewrite verdict_collection in Hnone.
    discriminate Hnone.
  - intro Hin. destruct (stack_first_null elts Hin) as (scts & rest & ->).
    now rewrite on_ct_validation_first_null.
Qed.

(** X13: the loop of the callback ends on every stack, [NULL] elements or
    not: [num_sct + 1] tests of its condition suffice, and any larger bound
    gives the same result. *)
Theorem on_ct_validation_terminates (stderr_bio : option BIO)
    (ctx : CT_POLICY_EVAL_CTX) (scts : option STACK_OF_SCT) (arg : void_ptr) :
  exists r : result,
    r <> OutOfFuel
    /\ forall fuel : nat,
         (Z.to_nat (sk_SCT_num scts) < fuel)%nat ->
         on_ct_validation_fuel fuel stderr_bio ctx scts arg = r.
Proof.
  exists (on_ct_validation stderr_bio ctx scts arg). split.
  - apply on_ct_validation_fuel_suffices.
  - intros fuel Hfuel. apply on_ct_validation_fuel_enough.
    unfold loop_fuel. lia.
Qed.

(** X14: when the loop ends on a non-empty stack, the number of CA-signed
    SCTs it counted lies between 0 and the number of SCTs, so the [int]
    counter cannot overflow. *)
Theorem num_signed_sct_in_range (fuel : nat) (stderr_bio : option BIO)
    (scts : option STACK_OF_SCT) (st : loop_state) :
  0 < sk_SCT_num scts ->
  classify_loop fuel stderr_bio scts (sk_SCT_num scts) 0
    (mkState 0 [fprintf stderr msg_header []]) = LoopDone st ->
  0 <= num_signed_sct st <= sk_SCT_num scts.
Proof.
  intros Hnum Hrun.
  apply classify_loop_int_range in Hrun; [|lia].
  cbn [num_signed_sct] in Hrun. lia.
Qed.

Lemma num_signed_sct_in_range_witness :
  0 <= num_signed_sct
         (loop_body bio_stderr sct_tls
            (loop_body bio_stderr sct_x509v3
               (mkState 0 [fprintf stderr msg_header []])))
    <= sk_SCT_num (Some [Some sct_x509v3; Some sct_tls]).
Proof.
  apply (num_signed_sct_in_range 3 bio_stderr
           (Some [Some sct_x509v3; Some sct_tls])).
  - cbn. lia.
  - reflexivity.
Defined.

Lemma filter_flat_map {A B : Type} (keep : B -> bool) (f : A -> list B)
    (l : list A) :
  filter keep (flat_map f l) = flat_map (fun a => filter keep (f a)) l.
Proof.
  induction l as [|a l IH]; [reflexivity|].
  cbn [flat_map]. now rewrite filter_app, IH.
Qed.

Lemma classification_line_not_dump (sct : SCT) :
  is_dump (classification_line sct) = false.
Proof.
  destruct (classification_line_cases sct)
    as [[_ ->]|[[_ ->]|[[_ ->]|[_ ->]]]]; reflexivity.
Qed.

(** X15: whether the BIO on [stderr] could be opened changes neither the
    verdict nor any line but the dumps: without the BIO the callback writes
    what it writes with it, less the dump of each SCT and the empty line
    after it. *)
Theorem missing_bio_drops_only_dumps (bio : BIO) (ctx : CT_POLICY_EVAL_CTX)
    (scts : list SCT) (arg : void_ptr) :
  verdict (on_ct_validation None ctx (stack_of scts) arg)
  = verdict (on_ct_validation (Some bio) ctx (stack_of scts) arg)
  /\ diagnostics (on_ct_validation None ctx (stack_of scts) arg)
     = filter (fun e => negb (is_dump e))
         (diagnostics (on_ct_validation (Some bio) ctx (stack_of scts) arg)).
Proof.
  split; [now rewrite !verdict_collection|].
  rewrite !on_ct_validation_collection.
  destruct scts as [|sct scts]; [reflexivity|].
  unfold collection_result.
  assert (Hrecords :
            filter (fun e => negb (is_dump e))
              (flat_map (sct_record (Some bio)) (sct :: scts))
            = flat_map (sct_record None) (sct :: scts)).
  { rewrite filter_flat_map. apply flat_map_ext. intro a.
    unfold sct_record, print_sct. cbn [app filter is_dump negb].
    replace (String.eqb nl nl) with true by reflexivity. cbn [negb].
    now rewrite classification_line_not_dump. }
  destruct (count_signed (sct :: scts) <=? 0); cbn [diagnostics];
    rewrite <- Hrecords;
    change (fprintf stderr msg_header [] :: ?l ++ ?c)
      with ((fprintf stderr msg_header [] :: l) ++ c);
    rewrite filter_app; reflexivity.
Qed.
